(** * ThemedImage.astro: the theme-aware image resolver of evm.guide

    A shallow embedding of the component's frontmatter (normalisation of the
    two asset references, the two existence checks against the glob
    collection) and of its template (the two [<Image>] elements), followed by
    the properties of the resolver. *)

From Stdlib Require Import Ascii String List Bool Lia.
From stdpp Require Import base option list strings gmap.

Local Open Scope string_scope.

(** stdpp blocks [simpl] on string append; the proofs below compute with it. *)
#[local] Arguments String.append !s1 s2 : simpl nomatch.

(** ** JavaScript strings and values used by the component *)

Module Js.

(** The double quote character, which the error template puts around the
    key and around the glob pattern. *)
Definition dquote : string := String "034"%char EmptyString.

(** [s.startsWith(p)]. *)
Definition startsWith (s p : string) : bool := String.prefix p s.

(** [s.includes(t)]: [t] occurs somewhere in [s]. *)
Fixpoint includes (s t : string) : bool :=
  String.prefix t s ||
  match s with
  | EmptyString => false
  | String _ s' => includes s' t
  end.

(** [s.endsWith(t)]. *)
Fixpoint endsWith (s t : string) : bool :=
  String.eqb s t ||
  match s with
  | EmptyString => false
  | String _ s' => endsWith s' t
  end.

(** What a template literal does with [${v}] when [v : string | undefined]:
    [String(undefined)] is the text [undefined]. *)
Definition interpolate (v : option string) : string :=
  match v with
  | Some s => s
  | None => "undefined"
  end.

(** The two exceptions the component can meet: the [Error] it throws
    itself, and the [TypeError] of calling [undefined]. *)
Inductive exn : Type :=
| Error (message : string)
| TypeError (message : string).

Definition message (e : exn) : string :=
  match e with
  | Error m => m
  | TypeError m => m
  end.

End Js.

(** ** The build step: state, exceptions and emitted markup *)

Module Build.

Section WithAsset.

(** What a loader of the collection produces when called (the promise of
    the image module, [{ default: ImageMetadata }]). *)
Context {Asset : Type}.

(** A value of the glob object: a lazy loader. *)
Abbreviation Loader := (unit -> Asset) (only parsing).

(** One rendered [<Image src=.. alt=.. class=.. />]. *)
Record ImageElement : Type := Image {
  src : Asset;
  alt : string;
  class : string
}.

(** The world a component invocation runs in: the object returned by
    [import.meta.glob] and the markup emitted so far. *)
Record World : Type := mkWorld {
  images : gmap string Loader;
  output : list ImageElement
}.

Inductive Outcome (A : Type) : Type :=
| Ok (a : A)
| Throw (e : Js.exn).

Definition M (A : Type) : Type := World -> Outcome A * World.

Definition ret {A} (a : A) : M A := fun w => (Ok A a, w).

Definition bind {A B} (m : M A) (k : A -> M B) : M B :=
  fun w =>
    match m w with
    | (Ok _ a, w') => k a w'
    | (Throw _ e, w') => (Throw B e, w')
    end.

(** [throw e]: nothing in the component catches it. *)
Definition throw {A} (e : Js.exn) : M A := fun w => (Throw A e, w).

(** [images[k]]: a property read; [None] is [undefined]. Every key the
    component reads starts with [/src/assets], so the read never falls
    through to a property inherited from [Object.prototype]. *)
Definition getImage (k : string) : M (option Loader) :=
  fun w => (Ok _ (images w !! k), w).

(** [images[k]()]: read the property and call it. *)
Definition callImage (k : string) : M Asset :=
  bind (getImage k) (fun f =>
    match f with
    | Some load => ret (load tt)
    | None => throw (Js.TypeError "images[k] is not a function")
    end).

(** An element of the template is appended to the markup. *)
Definition emit (e : ImageElement) : M unit :=
  fun w => (Ok _ tt, mkWorld (images w) (output w ++ [e])).

End WithAsset.

Arguments ImageElement : clear implicits.
Arguments World : clear implicits.
Arguments M : clear implicits.
Arguments Ok {A} a.
Arguments Throw {A} e.

Abbreviation Loader Asset := (unit -> Asset) (only parsing).

End Build.

Notation "'let!' x ':=' m 'in' k" := (Build.bind m (fun x => k))
  (at level 10, x name, m at level 100, k at level 200, only parsing).
Notation "'do!' m 'in' k" := (Build.bind m (fun _ => k))
  (at level 10, m at level 100, k at level 200, only parsing).

(** ** The component *)

Module ThemedImage.

Import Build.

(** [type Props]. *)
Record Props : Type := mkProps {
  p_dark : string;
  p_light : string;
  p_alt : string;
  p_class : option string
}.

(** ["/src/assets" + (raw.startsWith("/") ? "" : "/") + raw], the
    expression that defines both [dark] (from [darkRaw]) and [light] (from
    [lightRaw]). *)
Definition assetKey (raw : string) : string :=
  "/src/assets" +:+ (if Js.startsWith raw "/" then "" else "/") +:+ raw.

Definition GLOB : string := "/src/assets/**/*.{jpeg,jpg,png,gif,svg}".

(** [`"${key}" does not exist in glob: "${GLOB}"`]. *)
Definition notFound (key : string) : string :=
  Js.dquote +:+ key +:+ Js.dquote +:+ " does not exist in glob: "
    +:+ Js.dquote +:+ GLOB +:+ Js.dquote.

(** [`!hidden dark:!block ${Astro.props.class}`]. *)
Definition darkClass (props : Props) : string :=
  "!hidden dark:!block " +:+ Js.interpolate (p_class props).

(** [`block dark:hidden ${Astro.props.class}`]. *)
Definition lightClass (props : Props) : string :=
  "block dark:hidden " +:+ Js.interpolate (p_class props).

Section WithAsset.

Context {Asset : Type}.

(** The frontmatter: the two keys, then the two checks in order.
    [!images[k]] holds exactly when the property is missing, a loader
    being a function and so truthy. *)
Definition frontmatter (props : Props) : M Asset (string * string) :=
  let darkRaw := p_dark props in
  let lightRaw := p_light props in
  let dark := assetKey darkRaw in
  let light := assetKey lightRaw in
  let! d := getImage dark in
  match d with
  | None => throw (Js.Error (notFound dark))
  | Some _ =>
      let! l := getImage light in
      match l with
      | None => throw (Js.Error (notFound light))
      | Some _ => ret (dark, light)
      end
  end.

(** The template: the dark element, then the light one. *)
Definition template (props : Props) (keys : string * string)
  : M Asset unit :=
  let '(dark, light) := keys in
  let! sd := callImage dark in
  do! emit (Image sd (p_alt props) (darkClass props)) in
  let! sl := callImage light in
  emit (Image sl (p_alt props) (lightClass props)).

Definition render (props : Props) : M Asset unit :=
  let! keys := frontmatter props in
  template props keys.

End WithAsset.

End ThemedImage.

(** ** Class attributes and the display rules of a stylesheet

    The class attributes are plain text to the component. Which element is
    displayed is decided by the browser from the stylesheet that the
    Tailwind integration loaded in [astro.config.mjs] generates; neither is
    among the sources. The stylesheet is therefore not fixed here: it is
    a parameter, and the statements about display hold for every
    stylesheet that gives the component's four visibility classes the
    rules the spec describes. *)

Module Tailwind.

(** ASCII whitespace, on which a class attribute is split into tokens:
    tab, line feed, form feed, carriage return, space. *)
Definition isSpace (c : ascii) : bool :=
  match nat_of_ascii c with
  | 9 | 10 | 12 | 13 | 32 => true
  | _ => false
  end.

Fixpoint split (s : string) : list string :=
  match s with
  | EmptyString => [EmptyString]
  | String c s' =>
      if isSpace c then EmptyString :: split s'
      else match split s' with
           | [] => [String c EmptyString]
           | t :: ts => String c t :: ts
           end
  end.

(** The tokens of a class attribute. *)
Definition classList (cls : string) : list string :=
  List.filter (fun t => negb (String.eqb t "")) (split cls).

Definition isDark (theme : string) : bool := String.eqb theme "dark".

Section Cascade.

(** What the browser consults to tell whether a rule applies: the theme,
    and whatever else the conditions of a stylesheet read (the width of the
    viewport, the medium, ...). *)
Context {Env : Type}.

(** Modelled from the spec: one declaration on [display] in the stylesheet,
    which is not among the sources. [cond] is when its rule applies,
    [rank] its place in the order of the cascade (importance, then
    specificity, then position: of two declarations that apply, the one
    with the greater rank decides), [shown] whether it sets a display other
    than [none]. *)
Record Decl : Type := mkDecl {
  cond : Env -> bool;
  rank : nat;
  shown : bool
}.

(** Modelled from the spec: a stylesheet, as far as [display] goes: the
    declarations each class name brings, none for a class it has no rule
    for. *)
Definition Sheet : Type := string -> list Decl.

Definition declarations (sheet : Sheet) (cls : string) : list Decl :=
  flat_map sheet (classList cls).

(** Of two declarations, the one of greater rank. *)
Definition pick (d e : Decl) : Decl :=
  if Nat.ltb (rank d) (rank e) then e else d.

Definition join (o1 o2 : option Decl) : option Decl :=
  match o1, o2 with
  | Some d, Some e => Some (pick d e)
  | Some d, None => Some d
  | None, _ => o2
  end.

Definition winner (ds : list Decl) : option Decl :=
  fold_right (fun d acc => join (Some d) acc) None ds.

(** The declaration that decides the display of an element with class
    attribute [cls] in [env], if any applies. *)
Definition deciding (sheet : Sheet) (env : Env) (cls : string)
  : option Decl :=
  winner (List.filter (fun d => cond d env) (declarations sheet cls)).

(** Modelled from the spec: whether an element with class attribute [cls]
    is displayed in [env], the cascade being the browser's and not among
    the sources; when no declaration applies an image keeps its default
    display and is shown. *)
Definition displayed (sheet : Sheet) (env : Env) (cls : string) : bool :=
  match deciding sheet env cls with
  | Some d => shown d
  | None => true
  end.

(** The classes [extra] leave the visibility that the classes [own] give:
    the declaration that decides among [extra], if there is one, does not
    rank above the one that decides among [own], or sets the same. *)
Definition keepsVisibility (sheet : Sheet) (env : Env) (own extra : string)
  : bool :=
  match deciding sheet env own, deciding sheet env extra with
  | _, None => true
  | Some d, Some x => negb (Nat.ltb (rank d) (rank x))
                      || Bool.eqb (shown x) (shown d)
  | None, Some x => shown x
  end.


End Cascade.

Arguments Decl : clear implicits.
Arguments Sheet : clear implicits.

(** A viewer of the page: the active theme and the width of the viewport
    in pixels. *)
Record Viewer : Type := mkViewer {
  theme : string;
  width : nat
}.

(** Modelled from the spec: the rules of six classes, to try the
    statements on; it is a fragment, not the generated stylesheet, which is
    not among the sources. Beside the four visibility classes it holds
    [!flex] ([display: flex !important]) and [md:hidden] ([display: none]
    from 768 pixels of width on). *)
Definition fragment : Sheet Viewer := fun token =>
  if String.eqb token "block" then [mkDecl (fun _ => true) 1 true]
  else if String.eqb token "md:hidden"
    then [mkDecl (fun v => Nat.leb 768 (width v)) 2 false]
  else if String.eqb token "dark:hidden"
    then [mkDecl (fun v => isDark (theme v)) 3 false]
  else if String.eqb token "!flex" then [mkDecl (fun _ => true) 4 true]
  else if String.eqb token "!hidden" then [mkDecl (fun _ => true) 5 false]
  else if String.eqb token "dark:!block"
    then [mkDecl (fun v => isDark (theme v)) 6 true]
  else [].

End Tailwind.

Import Build ThemedImage.

(** ** The assets the content pages refer to *)

(** The four diagrams named by [calldata.mdx] and [function-selectors.mdx],
    as the glob object keyed by their paths; a loader here yields the path
    it stands for. *)
Definition siteImages : gmap string (Loader string) :=
  list_to_map
    (map (fun k => (k, fun _ : unit => k))
       ["/src/assets/concepts/calldata/dissection-dark.svg";
        "/src/assets/concepts/calldata/dissection-light.svg";
        "/src/assets/concepts/function-selectors/flowchart-dark.svg";
        "/src/assets/concepts/function-selectors/flowchart-light.svg"]).

Definition site : World string := mkWorld siteImages [].

(** The invocation at the end of [calldata.mdx]. *)
Definition dissection : Props :=
  mkProps "concepts/calldata/dissection-dark.svg"
          "concepts/calldata/dissection-light.svg"
          "Diagram labeling each part of the calldata" None.

(** The invocation at the end of [function-selectors.mdx]. *)
Definition flowchart : Props :=
  mkProps "concepts/function-selectors/flowchart-dark.svg"
          "concepts/function-selectors/flowchart-light.svg"
          "Flowchart of function selector generation process" None.

(** ** The extensions of the glob pattern *)

(** The brace list of the pattern given to [import.meta.glob]. *)
Definition globExtensions : list string :=
  ["jpeg"; "jpg"; "png"; "gif"; "svg"].

(** A path ends in a dot and one of the listed extensions, as every path
    that the pattern selects does. *)
Definition hasImageExtension (path : string) : bool :=
  existsb (fun e => Js.endsWith path ("." +:+ e)) globExtensions.

(** ** Strings *)

Section Strings.

Lemma length_app (s t : string) :
  String.length (s +:+ t) = String.length s + String.length t.
Proof. induction s as [|c s IH]; simpl; [reflexivity | now rewrite IH]. Qed.

Lemma app_inv_tail (s s' t : string) : s +:+ t = s' +:+ t -> s = s'.
Proof.
  revert s'. induction s as [|c s IH]; intros [|c' s'] H; simpl in H.
  - reflexivity.
  - apply (f_equal String.length) in H. simpl in H.
    rewrite length_app in H. lia.
  - apply (f_equal String.length) in H. simpl in H.
    rewrite length_app in H. lia.
  - injection H as -> H. f_equal. now apply IH.
Qed.

Lemma prefix_app (t q : string) : String.prefix t (t +:+ q) = true.
Proof.
  induction t as [|c t IH]; simpl.
  - now destruct q.
  - destruct (ascii_dec c c) as [_|n]; [exact IH | now destruct n].
Qed.

Lemma prefix_refl (t : string) : String.prefix t t = true.
Proof.
  induction t as [|c t IH]; simpl; [reflexivity|].
  destruct (ascii_dec c c) as [_|n]; [exact IH | now destruct n].
Qed.

Lemma includes_of_prefix (s t : string) :
  String.prefix t s = true -> Js.includes s t = true.
Proof. intros H. destruct s; cbn [Js.includes]; now rewrite H. Qed.

Lemma includes_skip (p s t : string) :
  Js.includes s t = true -> Js.includes (p +:+ s) t = true.
Proof.
  intros H. induction p as [|c p IH]; simpl; [exact H|].
  rewrite IH. apply orb_true_r.
Qed.

Lemma includes_tail (p t : string) : Js.includes (p +:+ t) t = true.
Proof. apply includes_skip, includes_of_prefix, prefix_refl. Qed.

Lemma includes_head (t q : string) : Js.includes (t +:+ q) t = true.
Proof. apply includes_of_prefix, prefix_app. Qed.

Lemma endsWith_app (p t : string) : Js.endsWith (p +:+ t) t = true.
Proof.
  induction p as [|c p IH]; simpl.
  - destruct t; simpl; [reflexivity|].
    now rewrite Ascii.eqb_refl, String.eqb_refl.
  - rewrite IH. apply orb_true_r.
Qed.

Lemma startsWith_slash (r : string) :
  Js.startsWith r "/" = true <-> exists r', r = "/" +:+ r'.
Proof.
  unfold Js.startsWith. split.
  - destruct r as [|c r]; cbn [String.prefix]; [discriminate|].
    destruct (ascii_dec _ c) as [e|]; [|discriminate].
    intros _. exists r. now rewrite <- e.
  - intros [r' ->]. simpl. now destruct r'.
Qed.

Lemma notFound_inj (k k' : string) : notFound k = notFound k' -> k = k'.
Proof.
  unfold notFound. intros H.
  apply (inj (String.app Js.dquote)) in H.
  now apply app_inv_tail in H.
Qed.

End Strings.

(** ** The steps of one invocation *)

Section Steps.

Context {Asset : Type}.
Implicit Types (props : Props) (w : World Asset).

Lemma frontmatter_dark_missing props w :
  images w !! assetKey (p_dark props) = None ->
  frontmatter props w
  = (Throw (Js.Error (notFound (assetKey (p_dark props)))), w).
Proof. intros H. unfold frontmatter, bind, getImage. now rewrite H. Qed.

Lemma frontmatter_light_missing props w :
  is_Some (images w !! assetKey (p_dark props)) ->
  images w !! assetKey (p_light props) = None ->
  frontmatter props w
  = (Throw (Js.Error (notFound (assetKey (p_light props)))), w).
Proof.
  intros [d Hd] Hl. unfold frontmatter, bind, getImage.
  rewrite Hd. simpl. now rewrite Hl.
Qed.

Lemma frontmatter_found props w :
  is_Some (images w !! assetKey (p_dark props)) ->
  is_Some (images w !! assetKey (p_light props)) ->
  frontmatter props w
  = (Ok (assetKey (p_dark props), assetKey (p_light props)), w).
Proof.
  intros [d Hd] [l Hl]. unfold frontmatter, bind, getImage.
  rewrite Hd. simpl. now rewrite Hl.
Qed.

Lemma render_dark_missing props w :
  images w !! assetKey (p_dark props) = None ->
  render props w
  = (Throw (Js.Error (notFound (assetKey (p_dark props)))), w).
Proof.
  intros H. unfold render, bind at 1.
  now rewrite frontmatter_dark_missing.
Qed.

Lemma render_light_missing props w :
  is_Some (images w !! assetKey (p_dark props)) ->
  images w !! assetKey (p_light props) = None ->
  render props w
  = (Throw (Js.Error (notFound (assetKey (p_light props)))), w).
Proof.
  intros Hd Hl. unfold render, bind at 1.
  now rewrite frontmatter_light_missing.
Qed.

Lemma render_found props w (d l : Loader Asset) :
  images w !! assetKey (p_dark props) = Some d ->
  images w !! assetKey (p_light props) = Some l ->
  render props w
  = (Ok tt,
     mkWorld (images w)
       (output w ++ [Image (d tt) (p_alt props) (darkClass props);
                     Image (l tt) (p_alt props) (lightClass props)])).
Proof.
  intros Hd Hl. unfold render, bind at 1.
  rewrite frontmatter_found by (rewrite ?Hd, ?Hl; eauto).
  unfold template, callImage, bind, getImage, emit, ret. simpl.
  rewrite Hd. simpl. rewrite Hl. simpl.
  now rewrite <- app_assoc.
Qed.

(** Any invocation ends in one of three ways. *)
Lemma render_cases props w :
  (images w !! assetKey (p_dark props) = None /\
   render props w
   = (Throw (Js.Error (notFound (assetKey (p_dark props)))), w))
  \/ (is_Some (images w !! assetKey (p_dark props)) /\
      images w !! assetKey (p_light props) = None /\
      render props w
      = (Throw (Js.Error (notFound (assetKey (p_light props)))), w))
  \/ (exists d l,
        images w !! assetKey (p_dark props) = Some d /\
        images w !! assetKey (p_light props) = Some l /\
        render props w
        = (Ok tt,
           mkWorld (images w)
             (output w ++ [Image (d tt) (p_alt props) (darkClass props);
                           Image (l tt) (p_alt props) (lightClass props)]))).
Proof.
  destruct (images w !! assetKey (p_dark props)) as [d|] eqn:Hd.
  - destruct (images w !! assetKey (p_light props)) as [l|] eqn:Hl.
    + right; right. exists d, l. auto using render_found.
    + right; left. rewrite <- Hd. split; [rewrite Hd; eauto|].
      split; [reflexivity|]. apply render_light_missing; [rewrite Hd; eauto | exact Hl].
  - left. split; [reflexivity|]. now apply render_dark_missing.
Qed.

End Steps.

(** ** The class attributes under the stylesheet *)

Section Classes.

Lemma classList_dark (c : string) :
  Tailwind.classList ("!hidden dark:!block " +:+ c)
  = "!hidden" :: "dark:!block" :: Tailwind.classList c.
Proof. reflexivity. Qed.

Lemma classList_light (c : string) :
  Tailwind.classList ("block dark:hidden " +:+ c)
  = "block" :: "dark:hidden" :: Tailwind.classList c.
Proof. reflexivity. Qed.



End Classes.

(** ** The cascade *)

Section CascadeFacts.

Import Tailwind.

Context {Env : Type}.
Implicit Types (d e : Decl Env) (o : option (Decl Env)).
Implicit Types (sheet : Sheet Env) (env : Env).









End CascadeFacts.

(** ** Properties of the resolver *)

(** A lookup in [siteImages] is settled by evaluation. *)
Ltac in_site := vm_compute; first [reflexivity | eexists; reflexivity].

(** C1: when the dark key or the light key is missing from the collection,
    the invocation ends in a thrown error, and the markup is what it was
    before the invocation: neither element has been emitted. *)
Theorem missing_key_throws_before_output {Asset : Type}
    (props : Props) (w : World Asset) :
  images w !! assetKey (p_dark props) = None
  \/ images w !! assetKey (p_light props) = None ->
  exists e w', render props w = (Throw e, w') /\ output w' = output w.
Proof.
  intros H.
  destruct (render_cases props w)
    as [[_ E]|[(_ & _ & E)|(d & l & Hd & Hl & _)]].
  - eauto.
  - eauto.
  - destruct H as [H|H]; [rewrite Hd in H | rewrite Hl in H]; discriminate H.
Qed.

Lemma missing_key_throws_before_output_witness :
  exists e w',
    render (mkProps "nonexistent.svg" "concepts/calldata/dissection-light.svg"
              "alt" None) site = (Throw e, w')
    /\ output w' = output site.
Proof.
  apply (missing_key_throws_before_output
           (mkProps "nonexistent.svg" "concepts/calldata/dissection-light.svg"
              "alt" None) site).
  left. in_site.
Defined.

(** C2: when both keys are in the collection the invocation returns
    normally and adds exactly two elements to the markup, each with the
    alt text of the props. *)
Theorem present_keys_render_two {Asset : Type}
    (props : Props) (w : World Asset) :
  is_Some (images w !! assetKey (p_dark props)) ->
  is_Some (images w !! assetKey (p_light props)) ->
  exists ed el,
    render props w = (Ok tt, mkWorld (images w) (output w ++ [ed; el]))
    /\ alt ed = p_alt props /\ alt el = p_alt props.
Proof.
  intros [d Hd] [l Hl]. rewrite (render_found props w d l Hd Hl).
  eexists _, _. split; [reflexivity|]. split; reflexivity.
Qed.

Lemma present_keys_render_two_witness :
  exists ed el,
    render dissection site
    = (Ok tt, mkWorld (images site) (output site ++ [ed; el]))
    /\ alt ed = p_alt dissection /\ alt el = p_alt dissection.
Proof.
  apply (present_keys_render_two dissection site);
    in_site.
Defined.

(** C3: a reference that does not start with [/] is keyed by the root, a
    [/] and the reference; a reference that starts with [/] is keyed by the
    root and the reference, with nothing in between. *)
Theorem assetKey_normalizes (r : string) :
  (~ (exists r', r = "/" +:+ r') -> assetKey r = "/src/assets" +:+ "/" +:+ r)
  /\ ((exists r', r = "/" +:+ r') -> assetKey r = "/src/assets" +:+ r).
Proof.
  unfold assetKey. split; intros H.
  - destruct (Js.startsWith r "/") eqn:E; [|reflexivity].
    apply startsWith_slash in E. contradiction.
  - apply startsWith_slash in H. now rewrite H.
Qed.

Lemma assetKey_normalizes_witness :
  assetKey "nonexistent.svg" = "/src/assets/nonexistent.svg"
  /\ assetKey "/logo.png" = "/src/assets/logo.png".
Proof.
  split.
  - apply (proj1 (assetKey_normalizes "nonexistent.svg")).
    intros [r' H]. discriminate H.
  - apply (proj2 (assetKey_normalizes "/logo.png")).
    exists "logo.png". reflexivity.
Defined.






(** Extra classes on the fragment: [!flex] shows both elements under the
    dark theme and [md:hidden] hides both on a wide viewport under the
    light theme, and neither keeps the visibility of the light element;
    the visibility classes themselves, given again as extra class, keep
    it. *)
Example extra_classes_on_fragment :
  let dark := Tailwind.mkViewer "dark" 1280 in
  let light := Tailwind.mkViewer "light" 1280 in
  (Tailwind.displayed Tailwind.fragment dark "!hidden dark:!block !flex"
   = true
   /\ Tailwind.displayed Tailwind.fragment dark "block dark:hidden !flex"
      = true
   /\ Tailwind.keepsVisibility Tailwind.fragment dark
        "block dark:hidden" "!flex" = false)
  /\ (Tailwind.displayed Tailwind.fragment light
        "!hidden dark:!block md:hidden" = false
      /\ Tailwind.displayed Tailwind.fragment light
           "block dark:hidden md:hidden" = false
      /\ Tailwind.keepsVisibility Tailwind.fragment light
           "block dark:hidden" "md:hidden" = false)
  /\ forallb
       (fun v =>
          forallb
            (fun extra =>
               Tailwind.keepsVisibility Tailwind.fragment v
                 "!hidden dark:!block" extra
               && Tailwind.keepsVisibility Tailwind.fragment v
                    "block dark:hidden" extra)
            ["block"; "dark:hidden"; "block dark:hidden"; "undefined";
             "mx-auto w-full"])
       [dark; light] = true.
Proof. vm_compute. repeat split. Qed.

(** The scenario of a dangling dark reference: the message in full. *)
Example nonexistent_dark_message :
  fst (render (mkProps "nonexistent.svg"
                 "concepts/calldata/dissection-light.svg" "alt" None) site)
  = Throw (Js.Error
      (Js.dquote +:+ "/src/assets/nonexistent.svg" +:+ Js.dquote
       +:+ " does not exist in glob: "
       +:+ Js.dquote +:+ "/src/assets/**/*.{jpeg,jpg,png,gif,svg}"
       +:+ Js.dquote)).
Proof. vm_compute. reflexivity. Qed.

(** C5: when a key is missing, the error that is thrown is about a missing
    key, and its message contains that key in normalized form and the glob
    pattern. *)
Theorem missing_key_message {Asset : Type} (props : Props) (w : World Asset) :
  images w !! assetKey (p_dark props) = None
  \/ images w !! assetKey (p_light props) = None ->
  exists k e,
    (k = assetKey (p_dark props) \/ k = assetKey (p_light props))
    /\ images w !! k = None
    /\ fst (render props w) = Throw e
    /\ Js.includes (Js.message e) k = true
    /\ Js.includes (Js.message e) "/src/assets/**/*.{jpeg,jpg,png,gif,svg}"
       = true.
Proof.
  intros H.
  assert (Hmsg : forall k,
    Js.includes (notFound k) k = true
    /\ Js.includes (notFound k) "/src/assets/**/*.{jpeg,jpg,png,gif,svg}"
       = true).
  { intros k. unfold notFound. split.
    - apply includes_skip, includes_head.
    - apply (includes_skip Js.dquote), (includes_skip k),
        (includes_skip Js.dquote),
        (includes_skip " does not exist in glob: "),
        (includes_skip Js.dquote), (includes_head GLOB). }
  destruct (render_cases props w)
    as [[Hd E]|[(_ & Hl & E)|(d & l & Hd & Hl & _)]].
  - exists (assetKey (p_dark props)),
      (Js.Error (notFound (assetKey (p_dark props)))).
    rewrite E. destruct (Hmsg (assetKey (p_dark props))). auto.
  - exists (assetKey (p_light props)),
      (Js.Error (notFound (assetKey (p_light props)))).
    rewrite E. destruct (Hmsg (assetKey (p_light props))). auto.
  - destruct H as [H|H]; [rewrite Hd in H | rewrite Hl in H]; discriminate H.
Qed.

Lemma missing_key_message_witness :
  exists k e,
    (k = assetKey "nonexistent.svg"
     \/ k = assetKey "concepts/calldata/dissection-light.svg")
    /\ images site !! k = None
    /\ fst (render (mkProps "nonexistent.svg"
                      "concepts/calldata/dissection-light.svg" "alt" None)
              site) = Throw e
    /\ Js.includes (Js.message e) k = true
    /\ Js.includes (Js.message e) "/src/assets/**/*.{jpeg,jpg,png,gif,svg}"
       = true.
Proof.
  apply (missing_key_message
           (mkProps "nonexistent.svg" "concepts/calldata/dissection-light.svg"
              "alt" None) site).
  left. in_site.
Defined.

(** C6: when the caller passes an extra class, the class attribute of the
    dark element and that of the light element both contain it, after the
    two visibility classes of the element. *)
Theorem extra_class_on_both {Asset : Type}
    (props : Props) (w : World Asset) (c : string) :
  is_Some (images w !! assetKey (p_dark props)) ->
  is_Some (images w !! assetKey (p_light props)) ->
  p_class props = Some c ->
  exists ed el,
    render props w = (Ok tt, mkWorld (images w) (output w ++ [ed; el]))
    /\ Js.includes (class ed) c = true
    /\ Js.includes (class el) c = true
    /\ Tailwind.classList (class ed)
       = "!hidden" :: "dark:!block" :: Tailwind.classList c
    /\ Tailwind.classList (class el)
       = "block" :: "dark:hidden" :: Tailwind.classList c.
Proof.
  intros [d Hd] [l Hl] Hc. rewrite (render_found props w d l Hd Hl).
  eexists _, _. split; [reflexivity|].
  unfold darkClass, lightClass. rewrite Hc.
  cbn [class Js.interpolate].
  repeat split;
    auto using includes_tail, classList_dark, classList_light.
Qed.

Lemma extra_class_on_both_witness :
  exists ed el,
    render (mkProps "concepts/function-selectors/flowchart-dark.svg"
              "/concepts/function-selectors/flowchart-light.svg"
              "Flowchart" (Some "mx-auto w-full")) site
    = (Ok tt, mkWorld (images site) (output site ++ [ed; el]))
    /\ Js.includes (class ed) "mx-auto w-full" = true
    /\ Js.includes (class el) "mx-auto w-full" = true
    /\ Tailwind.classList (class ed)
       = "!hidden" :: "dark:!block" :: Tailwind.classList "mx-auto w-full"
    /\ Tailwind.classList (class el)
       = "block" :: "dark:hidden" :: Tailwind.classList "mx-auto w-full".
Proof.
  apply (extra_class_on_both
           (mkProps "concepts/function-selectors/flowchart-dark.svg"
              "/concepts/function-selectors/flowchart-light.svg"
              "Flowchart" (Some "mx-auto w-full")) site "mx-auto w-full").
  - in_site.
  - in_site.
  - reflexivity.
Defined.

(** C7: whatever the props and however the invocation ends, the collection
    after it is the collection before it. *)
Theorem images_unchanged {Asset : Type} (props : Props) (w : World Asset) :
  images (snd (render props w)) = images w.
Proof.
  destruct (render_cases props w)
    as [[_ E]|[(_ & _ & E)|(d & l & _ & _ & E)]];
    rewrite E; reflexivity.
Qed.

(** C8: when the class prop is absent, the two class attributes are the
    visibility classes followed by the text [undefined]. *)
Theorem absent_class_renders_undefined {Asset : Type}
    (props : Props) (w : World Asset) :
  is_Some (images w !! assetKey (p_dark props)) ->
  is_Some (images w !! assetKey (p_light props)) ->
  p_class props = None ->
  exists ed el,
    render props w = (Ok tt, mkWorld (images w) (output w ++ [ed; el]))
    /\ class ed = "!hidden dark:!block undefined"
    /\ class el = "block dark:hidden undefined"
    /\ Js.endsWith (class ed) "undefined" = true
    /\ Js.endsWith (class el) "undefined" = true.
Proof.
  intros [d Hd] [l Hl] Hc. rewrite (render_found props w d l Hd Hl).
  eexists _, _. split; [reflexivity|].
  unfold darkClass, lightClass. rewrite Hc.
  repeat split; reflexivity.
Qed.

Lemma absent_class_renders_undefined_witness :
  exists ed el,
    render dissection site
    = (Ok tt, mkWorld (images site) (output site ++ [ed; el]))
    /\ class ed = "!hidden dark:!block undefined"
    /\ class el = "block dark:hidden undefined"
    /\ Js.endsWith (class ed) "undefined" = true
    /\ Js.endsWith (class el) "undefined" = true.
Proof.
  apply (absent_class_renders_undefined dissection site).
  - in_site.
  - in_site.
  - reflexivity.
Defined.

(** C9: when both keys are missing, the error is the one of the dark key;
    when the two keys differ it is not the one of the light key. *)
Theorem dark_checked_first {Asset : Type} (props : Props) (w : World Asset) :
  images w !! assetKey (p_dark props) = None ->
  images w !! assetKey (p_light props) = None ->
  render props w = (Throw (Js.Error (notFound (assetKey (p_dark props)))), w)
  /\ Js.includes (notFound (assetKey (p_dark props)))
       (assetKey (p_dark props)) = true
  /\ (assetKey (p_dark props) <> assetKey (p_light props) ->
      fst (render props w)
      <> Throw (Js.Error (notFound (assetKey (p_light props))))).
Proof.
  intros Hd _. rewrite (render_dark_missing props w Hd).
  split; [reflexivity|]. split.
  - unfold notFound. apply includes_skip, includes_head.
  - intros Hne E. apply Hne, notFound_inj. cbn [fst] in E. congruence.
Qed.

Lemma dark_checked_first_witness :
  render (mkProps "gone-dark.svg" "gone-light.svg" "alt" None) site
  = (Throw (Js.Error (notFound (assetKey "gone-dark.svg"))), site)
  /\ Js.includes (notFound (assetKey "gone-dark.svg"))
       (assetKey "gone-dark.svg") = true
  /\ (assetKey "gone-dark.svg" <> assetKey "gone-light.svg" ->
      fst (render (mkProps "gone-dark.svg" "gone-light.svg" "alt" None) site)
      <> Throw (Js.Error (notFound (assetKey "gone-light.svg")))).
Proof.
  apply (dark_checked_first
           (mkProps "gone-dark.svg" "gone-light.svg" "alt" None) site);
    vm_compute; reflexivity.
Defined.

(** C10: a reference [s] that does not start with [/] and the reference
    [/s] are different strings with the same key, the root followed by [/]
    and [s]. *)
Theorem assetKey_not_injective (s : string) :
  Js.startsWith s "/" = false ->
  s <> "/" +:+ s
  /\ assetKey s = "/src/assets/" +:+ s
  /\ assetKey ("/" +:+ s) = "/src/assets/" +:+ s.
Proof.
  intros H. split; [|split].
  - intros E. apply (f_equal String.length) in E.
    rewrite length_app in E. simpl in E. lia.
  - unfold assetKey. now rewrite H.
  - unfold assetKey.
    rewrite (proj2 (startsWith_slash ("/" +:+ s))) by eauto.
    reflexivity.
Qed.

Lemma assetKey_not_injective_witness :
  "logo.png" <> "/" +:+ "logo.png"
  /\ assetKey "logo.png" = "/src/assets/" +:+ "logo.png"
  /\ assetKey ("/" +:+ "logo.png") = "/src/assets/" +:+ "logo.png".
Proof. apply (assetKey_not_injective "logo.png"). reflexivity. Defined.

(** ** Further properties of the component *)

(** The extension list is the one written in the pattern. *)
Example glob_lists_extensions :
  GLOB = "/src/assets/**/*.{" +:+ String.concat "," globExtensions +:+ "}".
Proof. reflexivity. Qed.

Section KeyFacts.

Lemma assetKey_slash (r : string) :
  assetKey ("/" +:+ r) = "/src/assets/" +:+ r.
Proof.
  unfold assetKey.
  rewrite (proj2 (startsWith_slash ("/" +:+ r))) by eauto. reflexivity.
Qed.

Lemma assetKey_relative (r : string) :
  Js.startsWith r "/" = false -> assetKey r = "/src/assets/" +:+ r.
Proof. intros H. unfold assetKey. now rewrite H. Qed.

(** Every key is the root, a separator and a rest. *)
Lemma assetKey_shape (r : string) :
  exists rest, assetKey r = "/src/assets/" +:+ rest.
Proof.
  destruct (Js.startsWith r "/") eqn:E.
  - apply startsWith_slash in E as [r' ->]. exists r'. apply assetKey_slash.
  - exists r. now apply assetKey_relative.
Qed.

Lemma endsWith_assetKey (r e : string) :
  Js.endsWith (assetKey r) ("." +:+ e) = Js.endsWith r ("." +:+ e).
Proof.
  assert (Hroot : forall rest,
    Js.endsWith ("/src/assets/" +:+ rest) ("." +:+ e)
    = Js.endsWith rest ("." +:+ e)) by (intros rest; reflexivity).
  destruct (Js.startsWith r "/") eqn:E.
  - apply startsWith_slash in E as [r' ->].
    rewrite assetKey_slash, Hroot. reflexivity.
  - rewrite (assetKey_relative r E). apply Hroot.
Qed.

Lemma hasImageExtension_assetKey (r : string) :
  hasImageExtension (assetKey r) = hasImageExtension r.
Proof.
  unfold hasImageExtension.
  induction globExtensions as [|e l IH]; [reflexivity|].
  cbn [existsb]. now rewrite endsWith_assetKey, IH.
Qed.

End KeyFacts.

(** X1: the only way an invocation fails is the component's own error
    about a key of the pair that is missing from the collection; the call
    of a loader in the template never fails. *)
Theorem render_fails_only_on_missing_key {Asset : Type}
    (props : Props) (w w' : World Asset) (e : Js.exn) :
  render props w = (Throw e, w') ->
  exists k,
    (k = assetKey (p_dark props) \/ k = assetKey (p_light props))
    /\ images w !! k = None
    /\ e = Js.Error (notFound k)
    /\ w' = w.
Proof.
  intros H.
  destruct (render_cases props w)
    as [[Hd E]|[(_ & Hl & E)|(d & l & _ & _ & E)]];
    rewrite E in H; [| |discriminate H]; injection H as <- <-.
  - exists (assetKey (p_dark props)). auto.
  - exists (assetKey (p_light props)). auto.
Qed.

Lemma render_fails_only_on_missing_key_witness :
  exists k,
    (k = assetKey "concepts/calldata/dissection-dark.svg"
     \/ k = assetKey "missing.png")
    /\ images site !! k = None
    /\ Js.Error (notFound "/src/assets/missing.png")
       = Js.Error (notFound k)
    /\ site = site.
Proof.
  apply (render_fails_only_on_missing_key
           (mkProps "concepts/calldata/dissection-dark.svg" "missing.png"
              "alt" None) site site
           (Js.Error (notFound "/src/assets/missing.png"))).
  vm_compute. reflexivity.
Defined.

(** X2: when the dark key is present and the light key is missing, the
    error is the one of the light key and nothing is emitted; when the two
    keys differ it is not the error of the dark key. *)
Theorem light_missing_names_light {Asset : Type}
    (props : Props) (w : World Asset) :
  is_Some (images w !! assetKey (p_dark props)) ->
  images w !! assetKey (p_light props) = None ->
  render props w
  = (Throw (Js.Error (notFound (assetKey (p_light props)))), w)
  /\ Js.includes (notFound (assetKey (p_light props)))
       (assetKey (p_light props)) = true
  /\ notFound (assetKey (p_light props))
     <> notFound (assetKey (p_dark props)).
Proof.
  intros Hd Hl. split; [|split].
  - now apply render_light_missing.
  - unfold notFound. apply includes_skip, includes_head.
  - intros E. apply notFound_inj in E. rewrite <- E, Hl in Hd.
    destruct Hd as [x Hx]. discriminate Hx.
Qed.

Lemma light_missing_names_light_witness :
  render (mkProps "concepts/calldata/dissection-dark.svg" "missing.png"
            "alt" None) site
  = (Throw (Js.Error (notFound (assetKey "missing.png"))), site)
  /\ Js.includes (notFound (assetKey "missing.png"))
       (assetKey "missing.png") = true
  /\ notFound (assetKey "missing.png")
     <> notFound (assetKey "concepts/calldata/dissection-dark.svg").
Proof.
  apply (light_missing_names_light
           (mkProps "concepts/calldata/dissection-dark.svg" "missing.png"
              "alt" None) site); in_site.
Defined.

(** X3: whatever the reference, its key starts with the root followed by
    a separator. *)
Theorem assetKey_under_root (r : string) :
  Js.startsWith (assetKey r) "/src/assets/" = true.
Proof.
  destruct (assetKey_shape r) as [rest ->].
  unfold Js.startsWith. apply prefix_app.
Qed.

(** X4: a reference that is already a key is rooted a second time: the
    key of a key is the root followed by that key, and differs from it. *)
Theorem assetKey_not_idempotent (r : string) :
  assetKey (assetKey r) = "/src/assets" +:+ assetKey r
  /\ assetKey (assetKey r) <> assetKey r.
Proof.
  assert (E : assetKey (assetKey r) = "/src/assets" +:+ assetKey r).
  { destruct (assetKey_shape r) as [rest ->].
    apply (assetKey_slash ("src/assets/" +:+ rest)). }
  split; [exact E|].
  rewrite E. intros H. apply (f_equal String.length) in H.
  rewrite length_app in H. simpl in H. lia.
Qed.

(** X5: two references share a key only if they are equal or one is the
    other with a separator in front. *)
Theorem assetKey_collisions (a b : string) :
  assetKey a = assetKey b ->
  a = b \/ a = "/" +:+ b \/ b = "/" +:+ a.
Proof.
  intros H.
  destruct (Js.startsWith a "/") eqn:Ea, (Js.startsWith b "/") eqn:Eb.
  - apply startsWith_slash in Ea as [a' ->].
    apply startsWith_slash in Eb as [b' ->].
    rewrite !assetKey_slash in H.
    apply (inj (String.app "/src/assets/")) in H. left. now rewrite H.
  - apply startsWith_slash in Ea as [a' ->].
    rewrite assetKey_slash, (assetKey_relative b Eb) in H.
    apply (inj (String.app "/src/assets/")) in H. right; left.
    now rewrite H.
  - apply startsWith_slash in Eb as [b' ->].
    rewrite assetKey_slash, (assetKey_relative a Ea) in H.
    apply (inj (String.app "/src/assets/")) in H. right; right.
    now rewrite H.
  - rewrite (assetKey_relative a Ea), (assetKey_relative b Eb) in H.
    apply (inj (String.app "/src/assets/")) in H. now left.
Qed.

Lemma assetKey_collisions_witness :
  "/logo.png" = "logo.png" \/ "/logo.png" = "/" +:+ "logo.png"
  \/ "logo.png" = "/" +:+ "/logo.png".
Proof. apply (assetKey_collisions "/logo.png" "logo.png"). reflexivity. Defined.

(** X6: when every path of the collection ends in one of the extensions
    of the pattern, a pair with a reference that does not end in one of
    them never resolves: the invocation throws and emits nothing. *)
Theorem reference_without_extension_fails {Asset : Type}
    (props : Props) (w : World Asset) :
  map_Forall (fun k _ => hasImageExtension k = true) (images w) ->
  hasImageExtension (p_dark props) = false
  \/ hasImageExtension (p_light props) = false ->
  exists e, render props w = (Throw e, w).
Proof.
  intros Hall Hext.
  assert (Hkey : forall r,
    hasImageExtension r = false -> images w !! assetKey r = None).
  { intros r Hr. destruct (images w !! assetKey r) as [f|] eqn:E;
      [|reflexivity].
    apply Hall in E. rewrite hasImageExtension_assetKey, Hr in E.
    discriminate E. }
  destruct (render_cases props w)
    as [[_ E]|[(_ & _ & E)|(d & l & Hd & Hl & _)]]; eauto.
  destruct Hext as [H|H]; apply Hkey in H;
    [rewrite Hd in H | rewrite Hl in H]; discriminate H.
Qed.

Lemma reference_without_extension_fails_witness :
  exists e,
    render (mkProps "concepts/calldata/dissection-dark"
              "concepts/calldata/dissection-light.svg" "alt" None) site
    = (Throw e, site).
Proof.
  apply (reference_without_extension_fails
           (mkProps "concepts/calldata/dissection-dark"
              "concepts/calldata/dissection-light.svg" "alt" None) site).
  - apply (bool_decide_unpack _). vm_compute. reflexivity.
  - left. vm_compute. reflexivity.
Defined.

(** X7: each of the two pages that use the component builds its image
    exactly when the two files it names are in the collection under the
    assets root. *)
Theorem pages_need_their_assets {Asset : Type} (w : World Asset) :
  (fst (render dissection w) = Ok tt <->
   is_Some (images w !! "/src/assets/concepts/calldata/dissection-dark.svg")
   /\ is_Some
        (images w !! "/src/assets/concepts/calldata/dissection-light.svg"))
  /\ (fst (render flowchart w) = Ok tt <->
      is_Some
        (images w
           !! "/src/assets/concepts/function-selectors/flowchart-dark.svg")
      /\ is_Some
           (images w
            !! "/src/assets/concepts/function-selectors/flowchart-light.svg")).
Proof.
  assert (H : forall props,
    fst (render props w) = Ok tt <->
    is_Some (images w !! assetKey (p_dark props))
    /\ is_Some (images w !! assetKey (p_light props))).
  { intros props.
    destruct (render_cases props w)
      as [[Hd E]|[(_ & Hl & E)|(d & l & Hd & Hl & E)]]; rewrite E.
    - split; [discriminate|]. intros [[x Hx] _]. rewrite Hd in Hx.
      discriminate Hx.
    - split; [discriminate|]. intros [_ [x Hx]]. rewrite Hl in Hx.
      discriminate Hx.
    - rewrite Hd, Hl. split; [eauto|reflexivity]. }
  split.
  - apply (H dissection).
  - apply (H flowchart).
Qed.

(** X8: whether an invocation fails, and with which error, is decided by
    the two references and the collection alone: the alt text and the
    extra class are never looked at by the checks. *)
Theorem outcome_ignores_alt_and_class {Asset : Type}
    (props props' : Props) (w : World Asset) :
  p_dark props = p_dark props' ->
  p_light props = p_light props' ->
  fst (render props w) = fst (render props' w).
Proof.
  intros Hd Hl.
  destruct (render_cases props w)
    as [[Kd E]|[(Kd & Kl & E)|(d & l & Kd & Kl & E)]]; rewrite E.
  - rewrite Hd in *. now rewrite (render_dark_missing props' w Kd).
  - rewrite Hd, Hl in *. now rewrite (render_light_missing props' w Kd Kl).
  - rewrite Hd in Kd. rewrite Hl in Kl.
    now rewrite (render_found props' w d l Kd Kl).
Qed.

Lemma outcome_ignores_alt_and_class_witness :
  fst (render dissection site)
  = fst (render (mkProps "concepts/calldata/dissection-dark.svg"
                   "concepts/calldata/dissection-light.svg" ""
                   (Some "rounded")) site).
Proof.
  apply (outcome_ignores_alt_and_class dissection
           (mkProps "concepts/calldata/dissection-dark.svg"
              "concepts/calldata/dissection-light.svg" ""
              (Some "rounded")) site); reflexivity.
Defined.

(** X9: on success the first element emitted is the dark one: its source
    is what the loader under the dark key yields and its class starts with
    the dark visibility classes; the second is the light one, with the
    loader under the light key and the light visibility classes. *)
Theorem elements_bound_in_order {Asset : Type}
    (props : Props) (w : World Asset) (d l : Loader Asset) :
  images w !! assetKey (p_dark props) = Some d ->
  images w !! assetKey (p_light props) = Some l ->
  exists ed el,
    snd (render props w) = mkWorld (images w) (output w ++ [ed; el])
    /\ src ed = d tt
    /\ Js.startsWith (class ed) "!hidden dark:!block " = true
    /\ src el = l tt
    /\ Js.startsWith (class el) "block dark:hidden " = true.
Proof.
  intros Hd Hl. rewrite (render_found props w d l Hd Hl).
  eexists _, _. split; [reflexivity|].
  unfold Js.startsWith, darkClass, lightClass. cbn [src class].
  repeat split; apply prefix_app.
Qed.

Lemma elements_bound_in_order_witness :
  exists ed el,
    snd (render dissection site)
    = mkWorld (images site) (output site ++ [ed; el])
    /\ src ed = "/src/assets/concepts/calldata/dissection-dark.svg"
    /\ Js.startsWith (class ed) "!hidden dark:!block " = true
    /\ src el = "/src/assets/concepts/calldata/dissection-light.svg"
    /\ Js.startsWith (class el) "block dark:hidden " = true.
Proof.
  apply (elements_bound_in_order dissection site
           (fun _ => "/src/assets/concepts/calldata/dissection-dark.svg")
           (fun _ => "/src/assets/concepts/calldata/dissection-light.svg"));
    vm_compute; reflexivity.
Defined.
